(** * pin-vaasal: the authentication facade of [server.js]

    A shallow embedding of the five [/api] request handlers of [server.js]
    (signup, login, logout, verify-email, resend-verification) and of the
    JavaScript operations they are written with, followed by the properties
    of the request/response contract.

    The handlers are effectful: they call the identity provider's client
    ([supabase.auth.*]), write to the error console and send an HTTP
    response.  They are embedded in a small monad of handler computations
    that threads the response object's status code and the chronological log
    of observable events, and whose results distinguish normal completion, a
    thrown exception and an [await] that never settles.

    Conventions of the embedding:
    - values are untyped, as in JavaScript: truthiness, property reads on
      [undefined]/[null] and method calls on the wrong kind of value behave
      as the language defines them, so that a malformed provider reply takes
      the path it takes in the program;
    - the provider is a parameter: an arbitrary function from the history of
      the request and the call to a resolution, a rejection or no settlement;
    - a [Response] event records the object handed to [res.json] (the JSON
      text sent drops the properties whose value is [undefined]);
    - [console.error], [res.status] and [res.json] themselves do not throw. *)

From Stdlib Require Import String Ascii List ZArith Bool Floats Lia.
From ExtLib Require Import Structures.Monad Structures.MonadExc.
Import ListNotations.
Import MonadNotation.

Set Warnings "-register-all".

Local Open Scope string_scope.
Local Open Scope monad_scope.
Local Open Scope Z_scope.

(* ===================================================================== *)
(** ** JavaScript values *)
(* ===================================================================== *)

(** The data the handlers see: JSON request bodies, the objects the provider
    client resolves with, and the object literals passed to [res.json].
    Numbers are IEEE 754 doubles.  Objects are association lists in insertion
    order, with one binding for each key; a property read returns the
    binding of the key. *)
Inductive value : Type :=
| JUndefined
| JNull
| JBool (b : bool)
| JNum (x : float)
| JStr (s : string)
| JArr (items : list value)
| JObj (fields : list (string * value)).

Module JS.

(** ToBoolean: [undefined], [null], [false], [+0], [-0], [NaN] and the
    empty string are falsy, everything else is truthy. *)
Definition truthy (v : value) : bool :=
  match v with
  | JUndefined | JNull => false
  | JBool b => b
  | JNum x => negb (PrimFloat.eqb x 0%float) && PrimFloat.eqb x x
  | JStr s => negb (String.eqb s "")
  | JArr _ | JObj _ => true
  end.

(** [v === undefined || v === null]. *)
Definition nullish (v : value) : bool :=
  match v with
  | JUndefined | JNull => true
  | _ => false
  end.

(** The unary [!]. *)
Definition not (v : value) : value := JBool (negb (truthy v)).

Fixpoint assoc {A : Type} (k : string) (l : list (string * A)) : option A :=
  match l with
  | [] => None
  | (k', a) :: l' => if String.eqb k k' then Some a else assoc k l'
  end.

(** The value of [o.k] for a non-nullish [o] and one of the data property
    names that [server.js] reads ([email], [password], [tokenHash],
    [type], [data], [error], [message], [user], [session], [id],
    [email_confirmed_at], [access_token]).  None of these names is defined
    on the prototypes of primitives or arrays, so only an object can hold
    them; a key that is not bound reads as [undefined]. *)
Definition prop (o : value) (k : string) : value :=
  match o with
  | JObj fields =>
      match assoc k fields with
      | Some v => v
      | None => JUndefined
      end
  | _ => JUndefined
  end.

(** [String.prototype.includes]: [needle] occurs in [s] as a contiguous,
    case-sensitive substring. *)
Fixpoint includes (needle s : string) : bool :=
  String.prefix needle s
  || match s with
     | EmptyString => false
     | String _ s' => includes needle s'
     end.

(** [Array.prototype.includes] with a string argument: some item is that
    very string (SameValueZero). *)
Definition array_includes (needle : string) (items : list value) : bool :=
  existsb (fun v => match v with
                    | JStr s => String.eqb s needle
                    | _ => false
                    end) items.

(** [a || b] where [a] is a string or [undefined] and [b] a string. *)
Definition or_string (a : option string) (b : string) : string :=
  match a with
  | Some s => if truthy (JStr s) then s else b
  | None => b
  end.

End JS.

(* ===================================================================== *)
(** ** Requests, events and the provider *)
(* ===================================================================== *)

(** What a handler reads of Express's [req]: the header table (Node lowers
    the header names and gives each header's value as a string) and the body
    left by the [express.json()] middleware. *)
Record Request : Type := mkRequest {
  headers : list (string * string);
  body : value
}.

(** What can be thrown inside a handler. *)
Inductive exn : Type :=
| CannotRead (target : value) (key : string)
    (* TypeError: reading or destructuring property [key] of a nullish value *)
| NotAFunction (target : value) (key : string)
    (* TypeError: calling [target.key(...)] where [target.key] is not a function *)
| Rejected (reason : value).
    (* the awaited provider promise rejected with [reason] *)

(** The observable actions of a handler, in the order they happen. *)
Inductive event : Type :=
| ProviderCall (method : string) (args : list value)  (* supabase.auth.method(...args) *)
| ConsoleError (label : string) (error : exn)         (* console.error(label, error) *)
| Response (status : Z) (json : value).               (* res.status(status).json(json) *)

(** How an awaited provider promise settles, or fails to. *)
Inductive settlement : Type :=
| Resolve (reply : value)
| Reject (reason : value)
| Pending.

(** The provider is external: any function from the events so far and the
    call made to a settlement. *)
Definition Provider : Type := list event -> string -> list value -> settlement.

(* ===================================================================== *)
(** ** The monad of handler computations *)
(* ===================================================================== *)

(** The mutable state of one request: the status code held by [res] (200
    until [res.status] is called) and the event log. *)
Record world : Type := mkWorld {
  statusCode : Z;
  log : list event
}.

Definition init : world := {| statusCode := 200; log := [] |}.

Inductive result (A : Type) : Type :=
| Done (a : A)
| Threw (e : exn)
| Hung.

Arguments Done {A} a.
Arguments Threw {A} e.
Arguments Hung {A}.

Definition Handler (A : Type) : Type := world -> result A * world.

#[export] Instance Monad_Handler : Monad Handler := {|
  ret := fun A (a : A) => fun w => (Done a, w);
  bind := fun A B (m : Handler A) (k : A -> Handler B) => fun w =>
    match m w with
    | (Done a, w') => k a w'
    | (Threw e, w') => (Threw e, w')
    | (Hung, w') => (Hung, w')
    end
|}.

(** [throw] and [try { c } catch (error) { h error }]. *)
#[export] Instance Exc_Handler : MonadExc exn Handler := {|
  raise := fun A (e : exn) => fun w => (Threw e, w);
  catch := fun A (c : Handler A) (h : exn -> Handler A) => fun w =>
    match c w with
    | (Threw e, w') => h e w'
    | r => r
    end
|}.

Definition emit (ev : event) : Handler unit :=
  fun w => (Done tt, {| statusCode := statusCode w; log := log w ++ [ev] |}).

(** [res.status(code)]. *)
Definition res_status (code : Z) : Handler unit :=
  fun w => (Done tt, {| statusCode := code; log := log w |}).

(** [res.json(obj)]: sends [obj] with the status code [res] holds. *)
Definition res_json (obj : value) : Handler unit :=
  fun w => emit (Response (statusCode w) obj) w.

(** [console.error(label, error)]. *)
Definition console_error (label : string) (error : exn) : Handler unit :=
  emit (ConsoleError label error).

(** The property read [o.k], also as one name of a destructuring pattern
    [const { k } = o]: a TypeError on [undefined] and [null]. *)
Definition get (o : value) (k : string) : Handler value :=
  if JS.nullish o then raise (CannotRead o k) else ret (JS.prop o k).

(** The optional chain [o?.k]. *)
Definition get_opt (o : value) (k : string) : Handler value :=
  if JS.nullish o then ret JUndefined else ret (JS.prop o k).

(** The method call [o.includes(needle)] with a string [needle]. *)
Definition call_includes (o : value) (needle : string) : Handler bool :=
  match o with
  | JUndefined | JNull => raise (CannotRead o "includes")
  | JStr s => ret (JS.includes needle s)
  | JArr items => ret (JS.array_includes needle items)
  | JBool _ | JNum _ | JObj _ => raise (NotAFunction o "includes")
  end.

(** The final trace and outcome of a handler run on a fresh [res]. *)
Definition run {A : Type} (h : Handler A) : result A * list event :=
  let (r, w) := h init in (r, log w).

(* ===================================================================== *)
(** ** The handlers of [server.js] *)
(* ===================================================================== *)

(** The fixed texts of [server.js]. *)
Definition msg_credentials_required := "Email and password are required".
Definition msg_token_required := "Token hash and type are required".
Definition msg_email_required := "Email is required".
Definition msg_internal := "Internal server error".
Definition msg_check_email := "Please check your email to verify your account".
Definition msg_created := "Account created successfully".
Definition msg_verify_first := "Please verify your email before logging in".
Definition msg_logged_out := "Logged out successfully".
Definition msg_verified := "Email verified successfully".
Definition msg_resent := "Verification email sent successfully".
Definition default_origin := "http://localhost:4200".

(** [{ success: false, message: m }]. *)
Definition failure (m : value) : value :=
  JObj [("success", JBool false); ("message", m)].

(** [{ success: false, needsVerification: true, message: '...' }]. *)
Definition unverified : value :=
  JObj [("success", JBool false);
        ("needsVerification", JBool true);
        ("message", JStr msg_verify_first)].

(** [req.headers.origin]. *)
Definition origin (req : Request) : option string :=
  JS.assoc "origin" (headers req).

(** [`${req.headers.origin || 'http://localhost:4200'}/verify-email`]. *)
Definition redirectUrl (req : Request) : string :=
  JS.or_string (origin req) default_origin ++ "/verify-email".

Section Handlers.

(** The provider client created at start-up and shared by the handlers. *)
Variable supabase : Provider.

(** [await supabase.auth.method(...args)]: the call is made, then the
    handler resumes with the reply, throws the rejection reason, or stays
    suspended. *)
Definition await_auth (method : string) (args : list value) : Handler value :=
  fun w =>
    let w' := {| statusCode := statusCode w;
                 log := log w ++ [ProviderCall method args] |} in
    match supabase (log w) method args with
    | Resolve reply => (Done reply, w')
    | Reject reason => (Threw (Rejected reason), w')
    | Pending => (Hung, w')
    end.

(** The [user] object literal shared by the signup, login and verify-email
    success envelopes:
    [{ id: data.user.id, email: data.user.email,
       emailConfirmed: !!data.user.email_confirmed_at }]. *)
Definition user_literal (data : value) : Handler value :=
  user <- get data "user" ;;
  id <- get user "id" ;;
  user <- get data "user" ;;
  email <- get user "email" ;;
  user <- get data "user" ;;
  confirmed <- get user "email_confirmed_at" ;;
  ret (JObj [("id", id);
             ("email", email);
             ("emailConfirmed", JS.not (JS.not confirmed))]).

(** [data.session?.access_token]. *)
Definition token_of (data : value) : Handler value :=
  session <- get data "session" ;;
  get_opt session "access_token".

(** The [try] block of [POST /api/signup] (lines 27-69). *)
Definition signup_try (req : Request) : Handler unit :=
  email <- get (body req) "email" ;;
  password <- get (body req) "password" ;;
  if negb (JS.truthy email) || negb (JS.truthy password) then
    res_status 400 ;;
    res_json (failure (JStr msg_credentials_required))
  else
    reply <- await_auth "signUp"
               [JObj [("email", email);
                      ("password", password);
                      ("options",
                       JObj [("emailRedirectTo", JStr (redirectUrl req))])]] ;;
    data <- get reply "data" ;;
    error <- get reply "error" ;;
    if JS.truthy error then
      message <- get error "message" ;;
      res_status 400 ;;
      res_json (failure message)
    else
      (* data.user && !data.user.email_confirmed_at *)
      user <- get data "user" ;;
      needsVerification <-
        (if JS.truthy user then
           user <- get data "user" ;;
           confirmed <- get user "email_confirmed_at" ;;
           ret (JS.not confirmed)
         else ret user) ;;
      user <- user_literal data ;;
      token <- token_of data ;;
      res_json (JObj [("success", JBool true);
                      ("needsVerification", needsVerification);
                      ("user", user);
                      ("token", token);
                      ("message",
                       if JS.truthy needsVerification
                       then JStr msg_check_email
                       else JStr msg_created)]).

(** The [try] block of [POST /api/login] (lines 82-129). *)
Definition login_try (req : Request) : Handler unit :=
  email <- get (body req) "email" ;;
  password <- get (body req) "password" ;;
  if negb (JS.truthy email) || negb (JS.truthy password) then
    res_status 400 ;;
    res_json (failure (JStr msg_credentials_required))
  else
    reply <- await_auth "signInWithPassword"
               [JObj [("email", email); ("password", password)]] ;;
    data <- get reply "data" ;;
    error <- get reply "error" ;;
    if JS.truthy error then
      message <- get error "message" ;;
      hit <- call_includes message "Email not confirmed" ;;
      if (hit : bool) then
        res_status 401 ;;
        res_json unverified
      else
        message <- get error "message" ;;
        res_status 401 ;;
        res_json (failure message)
    else
      user <- get data "user" ;;
      confirmed <- get user "email_confirmed_at" ;;
      if negb (JS.truthy confirmed) then
        res_status 401 ;;
        res_json unverified
      else
        user <- user_literal data ;;
        token <- token_of data ;;
        res_json (JObj [("success", JBool true);
                        ("user", user);
                        ("token", token)]).

(** The [try] block of [POST /api/logout] (lines 142-154). *)
Definition logout_try (req : Request) : Handler unit :=
  reply <- await_auth "signOut" [] ;;
  error <- get reply "error" ;;
  if JS.truthy error then
    message <- get error "message" ;;
    res_status 400 ;;
    res_json (failure message)
  else
    res_json (JObj [("success", JBool true);
                    ("message", JStr msg_logged_out)]).

(** The [try] block of [POST /api/verify-email] (lines 167-197). *)
Definition verify_email_try (req : Request) : Handler unit :=
  tokenHash <- get (body req) "tokenHash" ;;
  type <- get (body req) "type" ;;
  if negb (JS.truthy tokenHash) || negb (JS.truthy type) then
    res_status 400 ;;
    res_json (failure (JStr msg_token_required))
  else
    reply <- await_auth "verifyOtp"
               [JObj [("token_hash", tokenHash); ("type", type)]] ;;
    data <- get reply "data" ;;
    error <- get reply "error" ;;
    if JS.truthy error then
      message <- get error "message" ;;
      res_status 400 ;;
      res_json (failure message)
    else
      user <- user_literal data ;;
      token <- token_of data ;;
      res_json (JObj [("success", JBool true);
                      ("user", user);
                      ("token", token);
                      ("message", JStr msg_verified)]).

(** The [try] block of [POST /api/resend-verification] (lines 210-239). *)
Definition resend_verification_try (req : Request) : Handler unit :=
  email <- get (body req) "email" ;;
  if negb (JS.truthy email) then
    res_status 400 ;;
    res_json (failure (JStr msg_email_required))
  else
    reply <- await_auth "resend"
               [JObj [("type", JStr "signup");
                      ("email", email);
                      ("options",
                       JObj [("emailRedirectTo", JStr (redirectUrl req))])]] ;;
    error <- get reply "error" ;;
    if JS.truthy error then
      message <- get error "message" ;;
      res_status 400 ;;
      res_json (failure message)
    else
      res_json (JObj [("success", JBool true);
                      ("message", JStr msg_resent)]).

(** The five [/api] routes. *)
Inductive endpoint : Type :=
| Signup
| Login
| Logout
| VerifyEmail
| ResendVerification.

Definition try_block (ep : endpoint) : Request -> Handler unit :=
  match ep with
  | Signup => signup_try
  | Login => login_try
  | Logout => logout_try
  | VerifyEmail => verify_email_try
  | ResendVerification => resend_verification_try
  end.

(** The first argument of [console.error] in each [catch] block. *)
Definition error_label (ep : endpoint) : string :=
  match ep with
  | Signup => "Signup error:"
  | Login => "Login error:"
  | Logout => "Logout error:"
  | VerifyEmail => "Email verification error:"
  | ResendVerification => "Resend verification error:"
  end.

(** The [catch] block, the same in the five handlers but for the label. *)
Definition catch_block (ep : endpoint) (error : exn) : Handler unit :=
  console_error (error_label ep) error ;;
  res_status 500 ;;
  res_json (failure (JStr msg_internal)).

(** [app.post(path, async (req, res) => { try {...} catch (error) {...} })]. *)
Definition handler (ep : endpoint) (req : Request) : Handler unit :=
  catch (try_block ep req) (catch_block ep).

(** The events of serving one request. *)
Definition serve (ep : endpoint) (req : Request) : list event :=
  snd (run (handler ep req)).

End Handlers.

(** The responses in a trace. *)
Fixpoint responses (t : list event) : list (Z * value) :=
  match t with
  | [] => []
  | Response status json :: t' => (status, json) :: responses t'
  | _ :: t' => responses t'
  end.

(** The provider calls in a trace. *)
Fixpoint calls (t : list event) : list (string * list value) :=
  match t with
  | [] => []
  | ProviderCall method args :: t' => (method, args) :: calls t'
  | _ :: t' => calls t'
  end.

(* ===================================================================== *)
(** ** Vocabulary of the contract *)
(* ===================================================================== *)

(** The body fields each route insists on, and the text of its 400. *)
Definition required (ep : endpoint) : list string :=
  match ep with
  | Signup | Login => ["email"; "password"]
  | Logout => []
  | VerifyEmail => ["tokenHash"; "type"]
  | ResendVerification => ["email"]
  end.

Definition missing_message (ep : endpoint) : string :=
  match ep with
  | Signup | Login => msg_credentials_required
  | Logout => ""
  | VerifyEmail => msg_token_required
  | ResendVerification => msg_email_required
  end.


(** Paths into a provider reply [{ data: { user, session }, error }]. *)
Definition reply_error (reply : value) : value := JS.prop reply "error".
Definition reply_data (reply : value) : value := JS.prop reply "data".
Definition reply_user (reply : value) : value :=
  JS.prop (reply_data reply) "user".
Definition confirmed_at (user : value) : value :=
  JS.prop user "email_confirmed_at".

(** Own fields of a response body, one and two levels deep. *)
Definition field (json : value) (k : string) : option value :=
  match json with
  | JObj fields => JS.assoc k fields
  | _ => None
  end.

Definition field2 (json : value) (k1 k2 : string) : option value :=
  match field json k1 with
  | Some inner => field inner k2
  | None => None
  end.

(** The arguments of the provider calls, as functions of the request. *)
Definition credentials (req : Request) : value :=
  JObj [("email", JS.prop (body req) "email");
        ("password", JS.prop (body req) "password")].

Definition signUp_arg (req : Request) : value :=
  JObj [("email", JS.prop (body req) "email");
        ("password", JS.prop (body req) "password");
        ("options", JObj [("emailRedirectTo", JStr (redirectUrl req))])].

Definition resend_arg (req : Request) : value :=
  JObj [("type", JStr "signup");
        ("email", JS.prop (body req) "email");
        ("options", JObj [("emailRedirectTo", JStr (redirectUrl req))])].

(** [options.emailRedirectTo] of the single argument of a call. *)
Definition emailRedirectTo (args : list value) : value :=
  match args with
  | [arg] => JS.prop (JS.prop arg "options") "emailRedirectTo"
  | _ => JUndefined
  end.

(** The provider keeps to its client library's result type when every error
    it reports carries a string [message]. *)
Definition errors_have_messages (supabase : Provider) : Prop :=
  forall t method args reply,
    supabase t method args = Resolve reply ->
    JS.truthy (reply_error reply) = true ->
    exists m, JS.prop (reply_error reply) "message" = JStr m.

(** The login rule for provider errors, with the text searched for in the
    provider's message left open: a 401 in every case, which carries
    [needsVerification: true] and the fixed text exactly when the message
    contains [needle], and the provider's message and no [needsVerification]
    otherwise. *)
Definition login_error_rule (needle : string) : Prop :=
  forall (supabase : Provider) (req : Request) (reply : value) (m : string),
    JS.truthy (JS.prop (body req) "email") = true ->
    JS.truthy (JS.prop (body req) "password") = true ->
    supabase [] "signInWithPassword" [credentials req] = Resolve reply ->
    JS.truthy (reply_error reply) = true ->
    JS.prop (reply_error reply) "message" = JStr m ->
    exists json,
      responses (serve supabase Login req) = [(401, json)]
      /\ (JS.includes needle m = true <->
          field json "needsVerification" = Some (JBool true))
      /\ (JS.includes needle m = true ->
          field json "message" = Some (JStr msg_verify_first))
      /\ (JS.includes needle m = false ->
          field json "needsVerification" = None
          /\ field json "message" = Some (JStr m)).

(** The rule for the verification link, with the link expected for a request
    left open: every provider call of signup and resend-verification passes
    it as [options.emailRedirectTo]. *)
Definition redirect_rule (expected : Request -> string) : Prop :=
  forall (supabase : Provider) (ep : endpoint) (req : Request)
         (method : string) (args : list value),
    ep = Signup \/ ep = ResendVerification ->
    In (method, args) (calls (serve supabase ep req)) ->
    emailRedirectTo args = JStr (expected req).

(** The link when a present Origin header is always used. *)
Definition redirect_if_present (req : Request) : string :=
  match origin req with
  | Some o => o ++ "/verify-email"
  | None => "http://localhost:4200/verify-email"
  end.

(** The link when an empty Origin header counts as none. *)
Definition redirect_if_nonempty (req : Request) : string :=
  match origin req with
  | Some o =>
      if String.eqb o "" then "http://localhost:4200/verify-email"
      else o ++ "/verify-email"
  | None => "http://localhost:4200/verify-email"
  end.

(** *** Sample providers and requests *)

Definition always (s : settlement) : Provider := fun _ _ _ => s.

Definition reply_of (data error : value) : value :=
  JObj [("data", data); ("error", error)].

Definition new_user : value :=
  JObj [("id", JStr "u-1"); ("email", JStr "a@b.com")].

Definition confirmed_user : value :=
  JObj [("id", JStr "u-1");
        ("email", JStr "a@b.com");
        ("email_confirmed_at", JStr "2024-01-01T00:00:00Z")].

Definition data_of (user session : value) : value :=
  JObj [("user", user); ("session", session)].

Definition auth_error (m : string) : value :=
  JObj [("message", JStr m); ("status", JNum 400%float)].

Definition alice : Request :=
  mkRequest [("origin", "https://app.example")]
            (JObj [("email", JStr "a@b.com");
                   ("password", JStr "secret123")]).

Definition no_password : Request :=
  mkRequest [] (JObj [("email", JStr "a@b.com")]).


Definition empty_origin : Request :=
  mkRequest [("origin", "")]
            (JObj [("email", JStr "a@b.com");
                   ("password", JStr "secret123")]).

(** *** The routes as a whole *)

(** The argument of [verifyOtp]: [{ token_hash: tokenHash, type: type }]. *)
Definition verifyOtp_arg (req : Request) : value :=
  JObj [("token_hash", JS.prop (body req) "tokenHash");
        ("type", JS.prop (body req) "type")].

(** The provider call of each route: the method and its arguments. *)
Definition call_of (ep : endpoint) (req : Request) : string * list value :=
  match ep with
  | Signup => ("signUp", [signUp_arg req])
  | Login => ("signInWithPassword", [credentials req])
  | Logout => ("signOut", [])
  | VerifyEmail => ("verifyOtp", [verifyOtp_arg req])
  | ResendVerification => ("resend", [resend_arg req])
  end.

Definition the_call (ep : endpoint) (req : Request) : event :=
  ProviderCall (fst (call_of ep req)) (snd (call_of ep req)).

(** The request passes the route's validation: every required field of the
    body is truthy. *)
Definition valid (ep : endpoint) (req : Request) : bool :=
  forallb (fun k => JS.truthy (JS.prop (body req) k)) (required ep).

(** How the provider settles the route's call, made first in the request. *)
Definition settlement_of
    (supabase : Provider) (ep : endpoint) (req : Request) : settlement :=
  supabase [] (fst (call_of ep req)) (snd (call_of ep req)).

Definition reply_session (reply : value) : value :=
  JS.prop (reply_data reply) "session".

(** [{ success: false, message: 'Internal server error' }]. *)
Definition internal_error : value := failure (JStr msg_internal).

(** The status a route gives to an error reported by the provider. *)
Definition error_status (ep : endpoint) : Z :=
  match ep with
  | Login => 401
  | _ => 400
  end.

(** The routes whose success envelope describes the user. *)
Definition describes_user (ep : endpoint) : bool :=
  match ep with
  | Signup | Login | VerifyEmail => true
  | Logout | ResendVerification => false
  end.

(** The console entries in a trace. *)
Fixpoint errors_logged (t : list event) : list (string * exn) :=
  match t with
  | [] => []
  | ConsoleError label error :: t' => (label, error) :: errors_logged t'
  | _ :: t' => errors_logged t'
  end.

(** The paths a request can take through a route, each with the trace it
    leaves. *)
Inductive served (supabase : Provider) (ep : endpoint) (req : Request) :
    list event -> Prop :=
| served_no_body (k : string) :
    JS.nullish (body req) = true ->
    valid ep req = false ->
    served supabase ep req
      [ConsoleError (error_label ep) (CannotRead (body req) k);
       Response 500 internal_error]
| served_invalid :
    JS.nullish (body req) = false ->
    valid ep req = false ->
    served supabase ep req
      [Response 400 (failure (JStr (missing_message ep)))]
| served_pending :
    valid ep req = true ->
    settlement_of supabase ep req = Pending ->
    served supabase ep req [the_call ep req]
| served_rejected (reason : value) :
    valid ep req = true ->
    settlement_of supabase ep req = Reject reason ->
    served supabase ep req
      [the_call ep req;
       ConsoleError (error_label ep) (Rejected reason);
       Response 500 internal_error]
| served_threw (reply : value) (target : value) (key : string) (e : exn) :
    valid ep req = true ->
    settlement_of supabase ep req = Resolve reply ->
    e = CannotRead target key \/ e = NotAFunction target key ->
    served supabase ep req
      [the_call ep req;
       ConsoleError (error_label ep) e;
       Response 500 internal_error]
| served_error (reply : value) :
    valid ep req = true ->
    settlement_of supabase ep req = Resolve reply ->
    JS.truthy (reply_error reply) = true ->
    served supabase ep req
      [the_call ep req;
       Response (error_status ep)
         (failure (JS.prop (reply_error reply) "message"))]
| served_unverified (reply : value) :
    ep = Login ->
    valid ep req = true ->
    settlement_of supabase ep req = Resolve reply ->
    served supabase ep req [the_call ep req; Response 401 unverified]
| served_success (reply json : value) :
    valid ep req = true ->
    settlement_of supabase ep req = Resolve reply ->
    JS.nullish reply = false ->
    JS.truthy (reply_error reply) = false ->
    field json "success" = Some (JBool true) ->
    served supabase ep req [the_call ep req; Response 200 json].

Definition bob : Request :=
  mkRequest [("origin", "https://other.example"); ("x-note", "hello")]
            (JObj [("email", JStr "bob@c.org");
                   ("password", JStr "hunter2");
                   ("remember", JBool true)]).

Definition verify_request : Request :=
  mkRequest [] (JObj [("tokenHash", JStr "abc123"); ("type", JStr "email")]).

Definition a_session : value :=
  JObj [("access_token", JStr "jwt-1"); ("refresh_token", JStr "r-1")].

(* ===================================================================== *)
(** ** Facts about the JavaScript operations *)
(* ===================================================================== *)

Lemma prefix_spec (n s : string) :
  String.prefix n s = true <-> exists b, s = n ++ b.
Proof.
  revert s. induction n as [| c n IH]; intros [| d s]; simpl.
  - split; [exists ""; reflexivity | reflexivity].
  - split; [eexists; reflexivity | reflexivity].
  - split; [discriminate | intros [b Hb]; discriminate Hb].
  - destruct (Ascii.ascii_dec c d) as [-> | Hne].
    + rewrite IH. split; intros [b Hb]; exists b.
      * now rewrite Hb.
      * now injection Hb.
    + split; [discriminate |].
      intros [b Hb]. injection Hb as Hc _. congruence.
Qed.

Lemma includes_empty (n : string) :
  JS.includes n "" = String.prefix n "".
Proof. simpl. apply orb_false_r. Qed.

Lemma includes_step (n : string) (c : ascii) (s : string) :
  JS.includes n (String c s) = String.prefix n (String c s) || JS.includes n s.
Proof. reflexivity. Qed.

(** [includes] decides the occurrence of [n] inside [s]. *)
Lemma includes_spec (n s : string) :
  JS.includes n s = true <-> exists a b, s = a ++ n ++ b.
Proof.
  induction s as [| c s IH].
  - rewrite includes_empty, prefix_spec. split.
    + intros [b Hb]. now exists "", b.
    + intros ([| ? a] & b & H); [| discriminate H]. now exists b.
  - rewrite includes_step, orb_true_iff, IH, prefix_spec. split.
    + intros [[b Hb] | (a & b & Hab)].
      * now exists "", b.
      * exists (String c a), b. simpl. now rewrite Hab.
    + intros ([| d a] & b & H).
      * left. now exists b.
      * right. injection H as _ H. now exists a, b.
Qed.

Lemma truthy_not_nullish (v : value) :
  JS.truthy v = true -> JS.nullish v = false.
Proof. destruct v; simpl; intros H; try reflexivity; discriminate H. Qed.


Lemma prop_of_nullish (o : value) (k : string) :
  JS.nullish o = true -> JS.prop o k = JUndefined.
Proof. destruct o; simpl; intros H; try reflexivity; discriminate H. Qed.

Lemma prop_not_nullish (o : value) (k : string) :
  JS.nullish (JS.prop o k) = false -> JS.nullish o = false.
Proof.
  destruct (JS.nullish o) eqn:E; [| reflexivity].
  rewrite (prop_of_nullish o k E). discriminate.
Qed.

Lemma truthy_prop (o : value) (k : string) :
  JS.truthy (JS.prop o k) = true -> JS.nullish o = false.
Proof. intros H. apply (prop_not_nullish o k), truthy_not_nullish, H. Qed.

(** [!!v] is the boolean [ToBoolean(v)]. *)
Lemma double_not (v : value) : JS.not (JS.not v) = JBool (JS.truthy v).
Proof. unfold JS.not. destruct (JS.truthy v); reflexivity. Qed.

Lemma truthy_string (s : string) :
  JS.truthy (JStr s) = negb (String.eqb s "").
Proof. reflexivity. Qed.

(** The link computed by the handlers. *)
Lemma redirectUrl_spec (req : Request) :
  redirectUrl req = redirect_if_nonempty req.
Proof.
  unfold redirectUrl, redirect_if_nonempty, JS.or_string, default_origin.
  destruct (origin req) as [o |]; [| reflexivity].
  rewrite truthy_string. destruct (String.eqb o ""); reflexivity.
Qed.

(* ===================================================================== *)
(** ** Symbolic execution of handlers *)
(* ===================================================================== *)

Arguments JS.truthy : simpl never.
Arguments JS.nullish : simpl never.
Arguments JS.prop : simpl never.
Arguments JS.includes : simpl never.
Arguments JS.array_includes : simpl never.
Arguments JS.or_string : simpl never.
Arguments redirectUrl : simpl never.

(** Unfold a handler down to the monad's operations. *)
Ltac unfold_handler :=
  unfold serve, run, handler, try_block, catch_block,
    signup_try, login_try, logout_try, verify_email_try,
    resend_verification_try, user_literal, token_of,
    get, get_opt, call_includes, await_auth, console_error, res_json,
    res_status, emit, init.

Ltac unfold_paths :=
  unfold credentials, signUp_arg, resend_arg,
    reply_error, reply_user, reply_data, confirmed_at in *.

(** Compute, rewriting with the equations at hand. *)
Ltac use_facts :=
  repeat (cbn;
          match goal with
          | H : ?x = _ |- context [?x] => rewrite H
          end);
  cbn.

(** One step: split on the next test the run is stuck on. *)
Ltac split_run :=
  match goal with
  | |- context [match ?s ?t ?m ?a with
                | Resolve _ => _ | Reject _ => _ | Pending => _ end] =>
      destruct (s t m a) eqn:?
  | |- context [if ?b then _ else _] =>
      destruct b eqn:?
  | |- context [match ?v with JUndefined => _ | _ => _ end] =>
      destruct v eqn:?
  end.

(** Run a handler along every path. *)
Ltac exec := unfold_handler; repeat (use_facts; split_run); use_facts.

(** Open a goal [In x l -> _] for a computed list [l] of responses or of
    calls, leaving one case for each member that can be [x]. *)
Ltac pick_member :=
  let H := fresh "Hin" in
  cbn; intros H;
  repeat match type of H with
         | _ \/ _ => destruct H as [H | H]
         | False => destruct H
         | (_, _) = (_, _) => inversion H; subst; clear H
         end.

Lemma responses_app (t u : list event) :
  responses (t ++ u) = (responses t ++ responses u)%list.
Proof.
  induction t as [| [method args | label error | status json] t IH];
    cbn; rewrite ?IH; reflexivity.
Qed.

(* ===================================================================== *)
(** ** Input validation *)
(* ===================================================================== *)




(** The boundary of the validation rule: when [req.body] itself is
    [undefined] or [null] there is nothing to destructure; the routes that
    read the body throw at once and answer from the [catch] block. *)
Remark no_body_500
    (supabase : Provider) (ep : endpoint) (req : Request) :
  JS.nullish (body req) = true ->
  ep <> Logout ->
  exists k,
    serve supabase ep req =
      [ConsoleError (error_label ep) (CannotRead (body req) k);
       Response 500 (failure (JStr msg_internal))].
Proof.
  intros Hbody Hep.
  destruct ep; try congruence; unfold_handler; use_facts;
    eexists; reflexivity.
Qed.

(* ===================================================================== *)
(** ** Login *)
(* ===================================================================== *)

(** C2. A login whose provider call resolves without an error and with a
    user whose [email_confirmed_at] is absent (or otherwise falsy) is
    answered 401 with [success: false] and [needsVerification: true]; no
    provider error text is involved. *)
Theorem login_unconfirmed_401
    (supabase : Provider) (req : Request) (reply : value) :
  JS.truthy (JS.prop (body req) "email") = true ->
  JS.truthy (JS.prop (body req) "password") = true ->
  supabase [] "signInWithPassword" [credentials req] = Resolve reply ->
  JS.truthy (reply_error reply) = false ->
  JS.nullish (reply_user reply) = false ->
  JS.truthy (confirmed_at (reply_user reply)) = false ->
  serve supabase Login req =
    [ProviderCall "signInWithPassword" [credentials req];
     Response 401 unverified]
  /\ field unverified "success" = Some (JBool false)
  /\ field unverified "needsVerification" = Some (JBool true).
Proof.
  unfold_paths.
  intros Hemail Hpassword Hcall Herror Huser Hconfirmed.
  pose proof (truthy_prop _ _ Hemail) as Hbody.
  pose proof (prop_not_nullish _ _ Huser) as Hdata.
  pose proof (prop_not_nullish _ _ Hdata) as Hreply.
  split; [| split; reflexivity].
  unfold_handler. use_facts. reflexivity.
Qed.

Lemma login_unconfirmed_401_witness :
  let supabase := always (Resolve (reply_of (data_of new_user JNull) JNull)) in
  serve supabase Login alice =
    [ProviderCall "signInWithPassword" [credentials alice];
     Response 401 unverified]
  /\ field unverified "success" = Some (JBool false)
  /\ field unverified "needsVerification" = Some (JBool true).
Proof.
  apply (login_unconfirmed_401
           (always (Resolve (reply_of (data_of new_user JNull) JNull)))
           alice (reply_of (data_of new_user JNull) JNull));
    reflexivity.
Defined.

(** C3 as amended. A login whose provider call resolves with an error is
    answered 401.  The body carries [needsVerification: true] and the fixed
    text exactly when the provider's message contains ["Email not confirmed"],
    capital E, compared case-sensitively; otherwise it carries the provider's
    message and has no [needsVerification] field. *)
Theorem login_provider_error : login_error_rule "Email not confirmed".
Proof.
  unfold login_error_rule. unfold_paths.
  intros supabase req reply m Hemail Hpassword Hcall Herror Hmessage.
  pose proof (truthy_prop _ _ Hemail) as Hbody.
  pose proof (truthy_not_nullish _ Herror) as Herr.
  pose proof (prop_not_nullish _ _ Herr) as Hreply.
  unfold_handler. use_facts.
  destruct (JS.includes "Email not confirmed" m) eqn:Hhit; cbn.
  - exists unverified. repeat split; try reflexivity; discriminate.
  - exists (failure (JStr m)). repeat split; try reflexivity; discriminate.
Qed.

Lemma login_provider_error_witness :
  let supabase :=
    always (Resolve (reply_of (data_of JNull JNull)
                              (auth_error "Invalid login credentials"))) in
  exists json,
    responses (serve supabase Login alice) = [(401, json)]
    /\ (JS.includes "Email not confirmed" "Invalid login credentials" = true <->
        field json "needsVerification" = Some (JBool true))
    /\ (JS.includes "Email not confirmed" "Invalid login credentials" = true ->
        field json "message" = Some (JStr msg_verify_first))
    /\ (JS.includes "Email not confirmed" "Invalid login credentials" = false ->
        field json "needsVerification" = None
        /\ field json "message" = Some (JStr "Invalid login credentials")).
Proof.
  apply (login_provider_error
           (always (Resolve (reply_of (data_of JNull JNull)
                                      (auth_error "Invalid login credentials"))))
           alice
           (reply_of (data_of JNull JNull)
                     (auth_error "Invalid login credentials"))
           "Invalid login credentials");
    reflexivity.
Defined.

(** C3 as stated fails: the provider message ["email not confirmed"], in
    lower case, contains the substring ["email not confirmed"], yet the 401
    carries the provider's message and no [needsVerification]. *)
Lemma login_error_lowercase_counterexample :
  ~ login_error_rule "email not confirmed".
Proof.
  intros Hrule.
  destruct (Hrule
              (always (Resolve (reply_of (data_of JNull JNull)
                                         (auth_error "email not confirmed"))))
              alice
              (reply_of (data_of JNull JNull)
                        (auth_error "email not confirmed"))
              "email not confirmed")
    as (json & Hresp & Hiff & _); try reflexivity.
  injection Hresp as <-.
  destruct Hiff as [Hcarries _].
  discriminate (Hcarries eq_refl).
Qed.

(* ===================================================================== *)
(** ** Signup *)
(* ===================================================================== *)

(** C4. When signup sends its success envelope for a created user, the
    envelope's [needsVerification] is the negation of the presence of
    [email_confirmed_at] on that user (present: a truthy value, so not
    [undefined], [null] or empty), and [user.emailConfirmed] is that
    presence. *)
Theorem signup_needsVerification
    (supabase : Provider) (req : Request) (reply json : value) :
  supabase [] "signUp" [signUp_arg req] = Resolve reply ->
  JS.truthy (reply_user reply) = true ->
  In (200, json) (responses (serve supabase Signup req)) ->
  field json "success" = Some (JBool true)
  /\ field json "needsVerification" =
       Some (JBool (negb (JS.truthy (confirmed_at (reply_user reply)))))
  /\ field2 json "user" "emailConfirmed" =
       Some (JBool (JS.truthy (confirmed_at (reply_user reply)))).
Proof.
  unfold_paths. intros Hcall Huser.
  exec; pick_member; try discriminate.
  all: cbn; rewrite double_not; repeat split.
Qed.

Lemma signup_needsVerification_witness :
  let reply := reply_of (data_of new_user JNull) JNull in
  let json :=
    JObj [("success", JBool true);
          ("needsVerification", JBool true);
          ("user", JObj [("id", JStr "u-1");
                         ("email", JStr "a@b.com");
                         ("emailConfirmed", JBool false)]);
          ("token", JUndefined);
          ("message", JStr "Please check your email to verify your account")] in
  field json "success" = Some (JBool true)
  /\ field json "needsVerification" =
       Some (JBool (negb (JS.truthy (confirmed_at (reply_user reply)))))
  /\ field2 json "user" "emailConfirmed" =
       Some (JBool (JS.truthy (confirmed_at (reply_user reply)))).
Proof.
  apply (signup_needsVerification
           (always (Resolve (reply_of (data_of new_user JNull) JNull)))
           alice).
  - reflexivity.
  - reflexivity.
  - left. reflexivity.
Defined.



(* ===================================================================== *)
(** ** Exceptions *)
(* ===================================================================== *)

(** No path through a [try] block that ends in a throw has sent a
    response. *)
Lemma thrown_before_response
    (supabase : Provider) (ep : endpoint) (req : Request)
    (e : exn) (t : list event) :
  run (try_block supabase ep req) = (Threw e, t) -> responses t = [].
Proof.
  destruct ep; exec; intros H; inversion H; reflexivity.
Qed.

(** C5. On each of the five routes, an exception thrown inside the [try]
    block is caught: the handler logs the original error under the route's
    label and then answers with status 500 and exactly
    [{ success: false, message: "Internal server error" }], which is the
    only response of the request and holds nothing of the error. *)
Theorem exception_500
    (supabase : Provider) (ep : endpoint) (req : Request)
    (e : exn) (t : list event) :
  run (try_block supabase ep req) = (Threw e, t) ->
  serve supabase ep req =
    (t ++ [ConsoleError (error_label ep) e;
           Response 500 (JObj [("success", JBool false);
                               ("message", JStr "Internal server error")])])%list
  /\ responses (serve supabase ep req) =
       [(500, JObj [("success", JBool false);
                    ("message", JStr "Internal server error")])].
Proof.
  intros Hthrow.
  pose proof (thrown_before_response _ _ _ _ _ Hthrow) as Hnone.
  assert (Hserve : serve supabase ep req =
                   (t ++ [ConsoleError (error_label ep) e;
                          Response 500 (failure (JStr msg_internal))])%list).
  { unfold serve, handler, run in *. cbn.
    destruct (try_block supabase ep req init) as [r w].
    inversion Hthrow; subst.
    unfold catch_block, console_error, res_json, res_status, emit. cbn.
    rewrite <- app_assoc. reflexivity. }
  split; [exact Hserve |].
  rewrite Hserve, responses_app, Hnone. reflexivity.
Qed.

Lemma exception_500_witness :
  let supabase := always (Reject (JStr "fetch failed")) in
  serve supabase Login alice =
    ([ProviderCall "signInWithPassword" [credentials alice]]
     ++ [ConsoleError "Login error:" (Rejected (JStr "fetch failed"));
         Response 500 (JObj [("success", JBool false);
                             ("message", JStr "Internal server error")])])%list
  /\ responses (serve supabase Login alice) =
       [(500, JObj [("success", JBool false);
                    ("message", JStr "Internal server error")])].
Proof.
  apply (exception_500 (always (Reject (JStr "fetch failed"))) Login alice
           (Rejected (JStr "fetch failed"))
           [ProviderCall "signInWithPassword" [credentials alice]]).
  reflexivity.
Defined.

(* ===================================================================== *)
(** ** Provider calls *)
(* ===================================================================== *)

(** The calls signup can make. *)
Lemma signup_calls
    (supabase : Provider) (req : Request) (method : string) (args : list value) :
  In (method, args) (calls (serve supabase Signup req)) ->
  method = "signUp" /\ args = [signUp_arg req].
Proof. unfold_paths. exec; pick_member; split; reflexivity. Qed.

(** The calls resend-verification can make. *)
Lemma resend_calls
    (supabase : Provider) (req : Request) (method : string) (args : list value) :
  In (method, args) (calls (serve supabase ResendVerification req)) ->
  method = "resend" /\ args = [resend_arg req].
Proof. unfold_paths. exec; pick_member; split; reflexivity. Qed.

(** C6 as amended. The [emailRedirectTo] that signup and resend-verification
    pass to the provider is the request's Origin header followed by
    ["/verify-email"] when that header is present and not empty, and
    ["http://localhost:4200/verify-email"] when it is absent or empty. *)
Theorem redirect_from_origin : redirect_rule redirect_if_nonempty.
Proof.
  intros supabase ep req method args [-> | ->] Hin.
  - apply signup_calls in Hin as [_ ->].
    rewrite <- redirectUrl_spec. reflexivity.
  - apply resend_calls in Hin as [_ ->].
    rewrite <- redirectUrl_spec. reflexivity.
Qed.

Lemma redirect_from_origin_witness :
  emailRedirectTo [signUp_arg alice] = JStr "https://app.example/verify-email".
Proof.
  apply (redirect_from_origin (always Pending) Signup alice "signUp"
           [signUp_arg alice]).
  - left. reflexivity.
  - left. reflexivity.
Defined.

(** C6 as stated fails: with an Origin header that is present and empty the
    handlers pass ["http://localhost:4200/verify-email"], not the header
    followed by ["/verify-email"]. *)
Lemma redirect_empty_origin_counterexample :
  ~ redirect_rule redirect_if_present.
Proof.
  intros Hrule.
  specialize (Hrule (always Pending) Signup empty_origin "signUp"
                [signUp_arg empty_origin]).
  discriminate Hrule.
  - left. reflexivity.
  - left. reflexivity.
Qed.

(** C10. Whatever the request holds, the argument of the provider's [resend]
    operation has [type: "signup"]; only [email] and the redirect link vary
    with the request. *)
Theorem resend_type_is_signup
    (supabase : Provider) (req : Request) (method : string) (args : list value) :
  In (method, args) (calls (serve supabase ResendVerification req)) ->
  method = "resend"
  /\ args = [JObj [("type", JStr "signup");
                   ("email", JS.prop (body req) "email");
                   ("options",
                    JObj [("emailRedirectTo", JStr (redirectUrl req))])]].
Proof. apply resend_calls. Qed.

Lemma resend_type_is_signup_witness :
  let req := mkRequest [] (JObj [("email", JStr "a@b.com");
                                 ("type", JStr "email_change")]) in
  "resend" = "resend"
  /\ [resend_arg req] =
     [JObj [("type", JStr "signup");
            ("email", JStr "a@b.com");
            ("options",
             JObj [("emailRedirectTo",
                    JStr "http://localhost:4200/verify-email")])]].
Proof.
  apply (resend_type_is_signup (always Pending)
           (mkRequest [] (JObj [("email", JStr "a@b.com");
                                ("type", JStr "email_change")]))).
  left. reflexivity.
Defined.

(** C7. Serving a request calls the provider at most once on every path:
    there is no retry after a provider error, a rejection or an exception. *)
Theorem at_most_one_call
    (supabase : Provider) (ep : endpoint) (req : Request) :
  (length (calls (serve supabase ep req)) <= 1)%nat.
Proof. destruct ep; exec; lia. Qed.

(* ===================================================================== *)
(** ** The response envelope *)
(* ===================================================================== *)

(** C8. With a provider whose errors carry a string message, every response
    of the five routes has a boolean [success] that is [true] exactly when
    the status is 200; the other statuses are 400, 401 and 500, and their
    bodies have [success: false] and a string [message]. *)
Theorem envelope
    (supabase : Provider) (ep : endpoint) (req : Request)
    (status : Z) (json : value) :
  errors_have_messages supabase ->
  In (status, json) (responses (serve supabase ep req)) ->
  field json "success" = Some (JBool (status =? 200))
  /\ In status [200; 400; 401; 500]
  /\ (status <> 200 -> exists m, field json "message" = Some (JStr m)).
Proof.
  unfold errors_have_messages. unfold_paths. intros Hwf.
  destruct ep; exec; pick_member; cbn;
    (split; [reflexivity |]); (split; [tauto |]); intros Hne;
    try congruence; try (eexists; reflexivity).
  all: match goal with
       | Hcall : _ = Resolve ?r,
         Herr : JS.truthy (JS.prop ?r "error") = true |- _ =>
           destruct (Hwf _ _ _ _ Hcall Herr) as [m Hm]
       end.
  all: exists m; congruence.
Qed.

Lemma envelope_witness :
  let json := failure (JStr "User already registered") in
  field json "success" = Some (JBool (400 =? 200))
  /\ In 400 [200; 400; 401; 500]
  /\ (400 <> 200 -> exists m, field json "message" = Some (JStr m)).
Proof.
  apply (envelope
           (always (Resolve (reply_of (data_of JNull JNull)
                                      (auth_error "User already registered"))))
           Signup alice 400 (failure (JStr "User already registered"))).
  - intros t method args reply Hcall _.
    injection Hcall as <-. exists "User already registered". reflexivity.
  - left. reflexivity.
Defined.

(* ===================================================================== *)
(** ** The routes as a whole *)
(* ===================================================================== *)

Ltac unfold_routes :=
  unfold the_call, settlement_of, call_of, verifyOtp_arg, reply_session,
    internal_error in *;
  cbn [fst snd] in *;
  unfold_paths.

(** A valid request has each of its required fields truthy. *)
Lemma valid_field (ep : endpoint) (req : Request) (k : string) :
  valid ep req = true -> In k (required ep) ->
  JS.truthy (JS.prop (body req) k) = true.
Proof.
  unfold valid. rewrite forallb_forall. intros H Hk. exact (H k Hk).
Qed.

(** From [valid ep req = true] for a known route, the truthiness of each
    required field and that the body can be destructured. *)
Ltac valid_facts H :=
  let step k :=
    (let Hk := fresh "Hfield" in
     let Hb := fresh "Hbody" in
     pose proof (valid_field _ _ k H ltac:(simpl; tauto)) as Hk;
     pose proof (truthy_prop _ _ Hk) as Hb) in
  try step "email"; try step "password";
  try step "tokenHash"; try step "type".

(** Split on whether the body can be destructured and on the truthiness of
    the fields named in the goal, dropping the impossible combinations. *)
Ltac field_cases req :=
  destruct (JS.nullish (body req)) eqn:Hnull;
  [ repeat match goal with
           | |- context [JS.truthy (JS.prop (body req) ?k)] =>
               rewrite (prop_of_nullish (body req) k Hnull);
               change (JS.truthy JUndefined) with false
           end
  | repeat match goal with
           | |- context [JS.truthy (JS.prop (body req) ?k)] =>
               destruct (JS.truthy (JS.prop (body req) k)) eqn:?
           end ].

Ltac served_side :=
  first [ eassumption
        | reflexivity
        | left; reflexivity
        | right; reflexivity ].

(** Every request takes one of the paths of [served]. *)
Lemma serve_served (supabase : Provider) (ep : endpoint) (req : Request) :
  served supabase ep req (serve supabase ep req).
Proof.
  assert (Hvalid : valid ep req =
                   forallb (fun k => JS.truthy (JS.prop (body req) k))
                           (required ep)) by reflexivity.
  revert Hvalid.
  destruct ep; cbn [required forallb]; field_cases req; cbn [andb];
    intros Hvalid; exec.
  all: first
    [ eapply served_no_body; solve [served_side]
    | eapply served_invalid; solve [served_side]
    | eapply served_pending; solve [served_side]
    | eapply served_rejected; solve [served_side]
    | eapply served_success; solve [served_side]
    | eapply served_error; solve [served_side]
    | eapply served_unverified; solve [served_side]
    | eapply served_threw; solve [served_side]
    | match goal with
      | H : JS.prop _ "message" = _ |- _ => rewrite <- H
      end;
      eapply served_error; solve [served_side] ].
Qed.

Lemma valid_no_body (ep : endpoint) (req : Request) :
  valid ep req = true -> ep <> Logout -> JS.nullish (body req) = false.
Proof.
  intros Hvalid Hep. destruct ep; try congruence; valid_facts Hvalid;
    assumption.
Qed.

(** X1. A route calls the provider exactly when the request passes its
    validation, and then once, with the arguments built from the required
    fields alone (and the Origin header for the redirect link): verify-email
    forwards [tokenHash] as [token_hash] and [type] unchanged, and logout
    calls [signOut()] with no argument for every request. *)
Theorem calls_iff_valid
    (supabase : Provider) (ep : endpoint) (req : Request) :
  calls (serve supabase ep req) =
    if valid ep req then [call_of ep req] else [].
Proof.
  destruct (serve_served supabase ep req);
    repeat match goal with
           | H : valid ep req = _ |- _ => rewrite H; clear H
           end;
    unfold the_call; destruct (call_of ep req); reflexivity.
Qed.

(** X2. A request is answered at most once, and the response is the last
    thing the handler does: nothing is logged and no provider call is made
    after it. *)
Theorem response_is_last
    (supabase : Provider) (ep : endpoint) (req : Request) :
  responses (serve supabase ep req) = []
  \/ exists before status json,
       serve supabase ep req = (before ++ [Response status json])%list
       /\ responses before = [].
Proof.
  destruct (serve_served supabase ep req);
    first [ left; reflexivity
          | right; eexists [], _, _; split; reflexivity
          | right; eexists [_], _, _; split; reflexivity
          | right; eexists [_; _], _, _; split; reflexivity ].
Qed.

(** X3. The only way a request goes unanswered is a provider call that never
    settles: the handler has no timeout, so the trace then ends with the
    call, and nothing is logged. *)
Theorem unanswered_iff_pending
    (supabase : Provider) (ep : endpoint) (req : Request) :
  (responses (serve supabase ep req) = [] <->
   valid ep req = true /\ settlement_of supabase ep req = Pending)
  /\ (responses (serve supabase ep req) = [] ->
      serve supabase ep req = [ProviderCall (fst (call_of ep req))
                                            (snd (call_of ep req))]).
Proof.
  destruct (serve_served supabase ep req); cbn;
    (split; [split |]);
    try (intros Hempty; discriminate Hempty);
    try (intros [Hv Hs]; congruence);
    try (intros _; split; assumption);
    try (intros _; reflexivity).
Qed.

(** X4. When the provider call of a valid request rejects (a network
    failure, say), the rejection reason is logged under the route's label
    and the client gets the generic 500; the reason is not sent. *)
Theorem rejection_500
    (supabase : Provider) (ep : endpoint) (req : Request) (reason : value) :
  valid ep req = true ->
  settlement_of supabase ep req = Reject reason ->
  serve supabase ep req =
    [ProviderCall (fst (call_of ep req)) (snd (call_of ep req));
     ConsoleError (error_label ep) (Rejected reason);
     Response 500 (JObj [("success", JBool false);
                         ("message", JStr "Internal server error")])].
Proof.
  intros Hvalid Hsettle.
  destruct (serve_served supabase ep req); try congruence.
  replace reason0 with reason by congruence. reflexivity.
Qed.

Lemma rejection_500_witness :
  serve (always (Reject (JStr "ECONNREFUSED"))) Logout (mkRequest [] JUndefined) =
    [ProviderCall "signOut" [];
     ConsoleError "Logout error:" (Rejected (JStr "ECONNREFUSED"));
     Response 500 (JObj [("success", JBool false);
                         ("message", JStr "Internal server error")])].
Proof.
  apply (rejection_500 (always (Reject (JStr "ECONNREFUSED"))) Logout
           (mkRequest [] JUndefined) (JStr "ECONNREFUSED"));
    reflexivity.
Defined.

(* ===================================================================== *)
(** ** Errors reported by the provider *)
(* ===================================================================== *)

(** X5. On signup, logout, verify-email and resend-verification, an error
    reported by the provider is answered 400 with the provider's message
    passed through as it is; [data] is not looked at on that path. *)
Theorem provider_error_400
    (supabase : Provider) (ep : endpoint) (req : Request) (reply : value) :
  ep <> Login ->
  valid ep req = true ->
  settlement_of supabase ep req = Resolve reply ->
  JS.truthy (reply_error reply) = true ->
  serve supabase ep req =
    [ProviderCall (fst (call_of ep req)) (snd (call_of ep req));
     Response 400 (JObj [("success", JBool false);
                         ("message", JS.prop (reply_error reply) "message")])].
Proof.
  intros Hep Hvalid Hsettle Herror.
  pose proof (truthy_not_nullish _ Herror) as Hnn.
  pose proof (prop_not_nullish _ _ Hnn) as Hreply.
  destruct ep; try congruence; valid_facts Hvalid; unfold_routes;
    unfold_handler; use_facts; reflexivity.
Qed.

Lemma provider_error_400_witness :
  let reply := JObj [("error", auth_error "Token has expired or is invalid")] in
  serve (always (Resolve reply)) VerifyEmail verify_request =
    [ProviderCall "verifyOtp"
       [JObj [("token_hash", JStr "abc123"); ("type", JStr "email")]];
     Response 400 (JObj [("success", JBool false);
                         ("message", JStr "Token has expired or is invalid")])].
Proof.
  apply (provider_error_400
           (always (Resolve (JObj [("error",
                                    auth_error "Token has expired or is invalid")])))
           VerifyEmail verify_request
           (JObj [("error", auth_error "Token has expired or is invalid")])).
  - discriminate.
  - reflexivity.
  - reflexivity.
  - reflexivity.
Defined.

(** X6. Only login answers 401, and only after the provider has replied to
    its call. *)
Theorem only_login_401
    (supabase : Provider) (ep : endpoint) (req : Request) (json : value) :
  In (401, json) (responses (serve supabase ep req)) ->
  ep = Login
  /\ exists reply, settlement_of supabase ep req = Resolve reply.
Proof.
  destruct (serve_served supabase ep req); unfold the_call; pick_member;
    try discriminate.
  - split; [| eauto]. destruct ep; try discriminate; reflexivity.
  - split; [reflexivity | eauto].
Qed.

Lemma only_login_401_witness :
  Login = Login
  /\ exists reply,
       settlement_of
         (always (Resolve (reply_of (data_of new_user JNull) JNull)))
         Login alice = Resolve reply.
Proof.
  apply (only_login_401
           (always (Resolve (reply_of (data_of new_user JNull) JNull)))
           Login alice unverified).
  left. reflexivity.
Defined.


(** X8. A success is never reported on the handler's own authority: every
    200 follows a provider call, made for a valid request, that resolved
    without an error, and its body has [success: true]. *)
Theorem success_needs_provider
    (supabase : Provider) (ep : endpoint) (req : Request) (json : value) :
  In (200, json) (responses (serve supabase ep req)) ->
  valid ep req = true
  /\ field json "success" = Some (JBool true)
  /\ exists reply,
       settlement_of supabase ep req = Resolve reply
       /\ JS.truthy (reply_error reply) = false.
Proof.
  destruct (serve_served supabase ep req); unfold the_call; pick_member;
    try discriminate.
  - destruct ep; discriminate.
  - eauto.
Qed.

Lemma success_needs_provider_witness :
  let supabase := always (Resolve (JObj [("error", JNull)])) in
  let json := JObj [("success", JBool true);
                    ("message", JStr "Logged out successfully")] in
  valid Logout alice = true
  /\ field json "success" = Some (JBool true)
  /\ exists reply,
       settlement_of supabase Logout alice = Resolve reply
       /\ JS.truthy (reply_error reply) = false.
Proof.
  apply (success_needs_provider
           (always (Resolve (JObj [("error", JNull)]))) Logout alice).
  left. reflexivity.
Defined.

(* ===================================================================== *)
(** ** Success envelopes *)
(* ===================================================================== *)

(** Run a handler under a hypothesis [In x (responses (serve ...))], with the
    conclusion set aside meanwhile, and keep the paths on which [x] is the
    response. *)
Ltac exec_member :=
  match goal with
  | |- In _ _ -> ?C =>
      let G := fresh "G" in
      let HG := fresh "HG" in
      remember C as G eqn:HG; symmetry in HG;
      exec; pick_member; try discriminate; try rewrite <- HG
  end.

(** X9. In the success envelope of signup, login and verify-email, [user]
    holds exactly the provider user's [id] and [email] and the boolean
    [emailConfirmed], nothing else of the provider's user object; [token] is
    the session's [access_token], and [undefined] (so absent from the JSON
    sent) when the provider returned no session. *)
Theorem success_user_and_token
    (supabase : Provider) (ep : endpoint) (req : Request)
    (reply json : value) :
  describes_user ep = true ->
  settlement_of supabase ep req = Resolve reply ->
  In (200, json) (responses (serve supabase ep req)) ->
  field json "user" =
    Some (JObj [("id", JS.prop (reply_user reply) "id");
                ("email", JS.prop (reply_user reply) "email");
                ("emailConfirmed",
                 JBool (JS.truthy (confirmed_at (reply_user reply))))])
  /\ field json "token" =
       Some (if JS.nullish (reply_session reply) then JUndefined
             else JS.prop (reply_session reply) "access_token").
Proof.
  intros Hep Hsettle.
  destruct ep; try discriminate Hep; unfold_routes; clear Hep;
    exec_member; use_facts; rewrite double_not; split; reflexivity.
Qed.

Lemma success_user_and_token_witness :
  let reply :=
    reply_of (data_of (JObj [("id", JStr "u-1");
                             ("email", JStr "a@b.com");
                             ("email_confirmed_at", JStr "2024-01-01T00:00:00Z");
                             ("phone", JStr "555-0100")])
                      JNull)
             JNull in
  let json :=
    JObj [("success", JBool true);
          ("user", JObj [("id", JStr "u-1");
                         ("email", JStr "a@b.com");
                         ("emailConfirmed", JBool true)]);
          ("token", JUndefined);
          ("message", JStr "Email verified successfully")] in
  field json "user" =
    Some (JObj [("id", JS.prop (reply_user reply) "id");
                ("email", JS.prop (reply_user reply) "email");
                ("emailConfirmed",
                 JBool (JS.truthy (confirmed_at (reply_user reply))))])
  /\ field json "token" =
       Some (if JS.nullish (reply_session reply) then JUndefined
             else JS.prop (reply_session reply) "access_token").
Proof.
  apply (success_user_and_token
           (always (Resolve
                      (reply_of
                         (data_of (JObj [("id", JStr "u-1");
                                         ("email", JStr "a@b.com");
                                         ("email_confirmed_at",
                                          JStr "2024-01-01T00:00:00Z");
                                         ("phone", JStr "555-0100")])
                                  JNull)
                         JNull)))
           VerifyEmail verify_request).
  - reflexivity.
  - reflexivity.
  - left. reflexivity.
Defined.

(** X10. A login success envelope always says [emailConfirmed: true]: the
    handler answers 200 only past its confirmation check.  It has the three
    fields [success], [user] and [token] and neither [needsVerification] nor
    [message]. *)
Theorem login_success_is_confirmed
    (supabase : Provider) (req : Request) (json : value) :
  In (200, json) (responses (serve supabase Login req)) ->
  field2 json "user" "emailConfirmed" = Some (JBool true)
  /\ field json "needsVerification" = None
  /\ field json "message" = None
  /\ exists user token,
       json = JObj [("success", JBool true); ("user", user); ("token", token)].
Proof.
  exec_member; cbn; rewrite double_not;
    match goal with
    | H : negb ?b = false |- _ =>
        apply negb_false_iff in H; rewrite H
    end;
    repeat split; eauto.
Qed.

Lemma login_success_is_confirmed_witness :
  let json :=
    JObj [("success", JBool true);
          ("user", JObj [("id", JStr "u-1");
                         ("email", JStr "a@b.com");
                         ("emailConfirmed", JBool true)]);
          ("token", JStr "jwt-1")] in
  field2 json "user" "emailConfirmed" = Some (JBool true)
  /\ field json "needsVerification" = None
  /\ field json "message" = None
  /\ exists user token,
       json = JObj [("success", JBool true); ("user", user); ("token", token)].
Proof.
  apply (login_success_is_confirmed
           (always (Resolve (reply_of (data_of confirmed_user a_session) JNull)))
           alice).
  left. reflexivity.
Defined.

(** X11. The text of the signup success envelope follows the confirmation
    state of the created user: "Please check your email to verify your
    account" when [email_confirmed_at] is absent, "Account created
    successfully" when it is set. *)
Theorem signup_message
    (supabase : Provider) (req : Request) (reply json : value) :
  settlement_of supabase Signup req = Resolve reply ->
  JS.truthy (reply_user reply) = true ->
  In (200, json) (responses (serve supabase Signup req)) ->
  field json "message" =
    Some (JStr (if JS.truthy (confirmed_at (reply_user reply))
                then "Account created successfully"
                else "Please check your email to verify your account")).
Proof.
  intros Hsettle Huser. unfold_routes. exec_member.
  all: match goal with
       | H : JS.truthy (JS.not ?v) = _ |- _ =>
           unfold JS.not in H; destruct (JS.truthy v); cbn in H;
           try discriminate H
       end.
  all: try discriminate; reflexivity.
Qed.

Lemma signup_message_witness :
  let reply := reply_of (data_of confirmed_user a_session) JNull in
  let json :=
    JObj [("success", JBool true);
          ("needsVerification", JBool false);
          ("user", JObj [("id", JStr "u-1");
                         ("email", JStr "a@b.com");
                         ("emailConfirmed", JBool true)]);
          ("token", JStr "jwt-1");
          ("message", JStr "Account created successfully")] in
  field json "message" =
    Some (JStr (if JS.truthy (confirmed_at (reply_user reply))
                then "Account created successfully"
                else "Please check your email to verify your account")).
Proof.
  apply (signup_message
           (always (Resolve (reply_of (data_of confirmed_user a_session) JNull)))
           alice).
  - reflexivity.
  - reflexivity.
  - left. reflexivity.
Defined.

(** X12. Verify-email does not gate on the confirmation state: when the
    provider reports no error and returns a user, the answer is 200 with
    the fixed text, and [emailConfirmed] merely reports whether
    [email_confirmed_at] is set, so it can be [false] in a success. *)
Theorem verify_email_not_gated
    (supabase : Provider) (req : Request) (reply : value) :
  valid VerifyEmail req = true ->
  settlement_of supabase VerifyEmail req = Resolve reply ->
  JS.truthy (reply_error reply) = false ->
  JS.nullish (reply_user reply) = false ->
  exists json,
    responses (serve supabase VerifyEmail req) = [(200, json)]
    /\ field json "success" = Some (JBool true)
    /\ field json "message" = Some (JStr "Email verified successfully")
    /\ field json "needsVerification" = None
    /\ field2 json "user" "emailConfirmed" =
         Some (JBool (JS.truthy (confirmed_at (reply_user reply)))).
Proof.
  intros Hvalid Hsettle Herror Huser. valid_facts Hvalid. unfold_routes.
  pose proof (prop_not_nullish _ _ Huser) as Hdata.
  pose proof (prop_not_nullish _ _ Hdata) as Hreply.
  exec; eexists; (split; [reflexivity |]); cbn; rewrite double_not;
    repeat split.
Qed.

Lemma verify_email_not_gated_witness :
  let reply := reply_of (data_of new_user JNull) JNull in
  exists json,
    responses (serve (always (Resolve reply)) VerifyEmail verify_request) =
      [(200, json)]
    /\ field json "success" = Some (JBool true)
    /\ field json "message" = Some (JStr "Email verified successfully")
    /\ field json "needsVerification" = None
    /\ field2 json "user" "emailConfirmed" =
         Some (JBool (JS.truthy (confirmed_at (reply_user reply)))).
Proof.
  apply (verify_email_not_gated
           (always (Resolve (reply_of (data_of new_user JNull) JNull)))
           verify_request (reply_of (data_of new_user JNull) JNull));
    reflexivity.
Defined.

(** X13. Login and verify-email, too, have no guard for a reply with neither
    an error nor a user: reading the user throws, the TypeError is logged
    and the client gets the generic 500. *)
Theorem no_user_500
    (supabase : Provider) (ep : endpoint) (req : Request) (reply : value) :
  ep = Login \/ ep = VerifyEmail ->
  valid ep req = true ->
  settlement_of supabase ep req = Resolve reply ->
  JS.truthy (reply_error reply) = false ->
  JS.nullish (reply_user reply) = true ->
  exists target key,
    serve supabase ep req =
      [ProviderCall (fst (call_of ep req)) (snd (call_of ep req));
       ConsoleError (error_label ep) (CannotRead target key);
       Response 500 (JObj [("success", JBool false);
                           ("message", JStr "Internal server error")])].
Proof.
  intros Hep Hvalid Hsettle Herror Huser.
  destruct Hep as [-> | ->]; valid_facts Hvalid; unfold_routes;
    exec; eexists _, _; reflexivity.
Qed.

Lemma no_user_500_witness :
  let reply := reply_of (data_of JNull JNull) JNull in
  exists target key,
    serve (always (Resolve reply)) Login alice =
      [ProviderCall "signInWithPassword" [credentials alice];
       ConsoleError "Login error:" (CannotRead target key);
       Response 500 (JObj [("success", JBool false);
                           ("message", JStr "Internal server error")])].
Proof.
  apply (no_user_500
           (always (Resolve (reply_of (data_of JNull JNull) JNull)))
           Login alice (reply_of (data_of JNull JNull) JNull)).
  - left. reflexivity.
  - reflexivity.
  - reflexivity.
  - reflexivity.
  - reflexivity.
Defined.

(** X14. Logout and resend-verification read nothing but [error] from the
    provider's reply: once the reply is an object without an error, the
    answer is 200 with the route's fixed text, whatever else the reply
    holds. *)
Theorem success_on_no_error
    (supabase : Provider) (ep : endpoint) (req : Request) (reply : value) :
  ep = Logout \/ ep = ResendVerification ->
  valid ep req = true ->
  settlement_of supabase ep req = Resolve reply ->
  JS.nullish reply = false ->
  JS.truthy (reply_error reply) = false ->
  serve supabase ep req =
    [ProviderCall (fst (call_of ep req)) (snd (call_of ep req));
     Response 200
       (JObj [("success", JBool true);
              ("message",
               JStr (match ep with
                     | Logout => "Logged out successfully"
                     | _ => "Verification email sent successfully"
                     end))])].
Proof.
  intros Hep Hvalid Hsettle Hreply Herror.
  destruct Hep as [-> | ->]; valid_facts Hvalid; unfold_routes;
    exec; reflexivity.
Qed.

Lemma success_on_no_error_witness :
  serve (always (Resolve (JObj []))) ResendVerification alice =
    [ProviderCall "resend" [resend_arg alice];
     Response 200
       (JObj [("success", JBool true);
              ("message", JStr "Verification email sent successfully")])].
Proof.
  apply (success_on_no_error (always (Resolve (JObj []))) ResendVerification
           alice (JObj []));
    try reflexivity.
  right. reflexivity.
Defined.

(** A valid request starts with the provider call. *)
Lemma valid_starts_with_call
    (supabase : Provider) (ep : endpoint) (req : Request) :
  valid ep req = true ->
  serve supabase ep req = the_call ep req :: tl (serve supabase ep req).
Proof.
  intros Hvalid.
  destruct (serve_served supabase ep req); try reflexivity; congruence.
Qed.

(** What follows the call depends on the settlement alone. *)
Lemma after_call_ignores_request
    (s : settlement) (ep : endpoint) (req1 req2 : Request) :
  valid ep req1 = true ->
  valid ep req2 = true ->
  tl (serve (always s) ep req1) = tl (serve (always s) ep req2).
Proof.
  intros Hvalid1 Hvalid2.
  destruct ep; valid_facts Hvalid1; valid_facts Hvalid2;
    unfold always; destruct s; exec; reflexivity.
Qed.

(** X15. Nothing of the request comes back in the answer: for a provider
    that settles the same way, two requests that pass a route's validation
    get the same response and leave the same console entry, whatever their
    bodies and headers hold. *)
Theorem response_ignores_request
    (s : settlement) (ep : endpoint) (req1 req2 : Request) :
  valid ep req1 = true ->
  valid ep req2 = true ->
  responses (serve (always s) ep req1) = responses (serve (always s) ep req2)
  /\ errors_logged (serve (always s) ep req1) =
     errors_logged (serve (always s) ep req2).
Proof.
  intros Hvalid1 Hvalid2.
  rewrite (valid_starts_with_call (always s) ep req1 Hvalid1).
  rewrite (valid_starts_with_call (always s) ep req2 Hvalid2).
  rewrite (after_call_ignores_request s ep req1 req2 Hvalid1 Hvalid2).
  split; reflexivity.
Qed.

Lemma response_ignores_request_witness :
  let s := Resolve (reply_of (data_of confirmed_user a_session) JNull) in
  responses (serve (always s) Login alice) =
    responses (serve (always s) Login bob)
  /\ errors_logged (serve (always s) Login alice) =
     errors_logged (serve (always s) Login bob).
Proof.
  apply (response_ignores_request
           (Resolve (reply_of (data_of confirmed_user a_session) JNull))
           Login alice bob);
    reflexivity.
Defined.

(** X16. A route reads nothing of the request but its required body fields
    and, on signup and resend-verification, the Origin header: two requests
    with a parsed body that agree on these are served identically, so other
    body fields and other headers have no effect, and logout does not depend
    on the request at all. *)
Theorem reads_only_required
    (supabase : Provider) (ep : endpoint) (req1 req2 : Request) :
  (ep <> Logout ->
   JS.nullish (body req1) = false /\ JS.nullish (body req2) = false) ->
  (forall k, In k (required ep) ->
             JS.prop (body req1) k = JS.prop (body req2) k) ->
  (ep = Signup \/ ep = ResendVerification -> origin req1 = origin req2) ->
  serve supabase ep req1 = serve supabase ep req2.
Proof.
  intros Hbody Hfields Horigin.
  assert (Hurl : ep = Signup \/ ep = ResendVerification ->
                 redirectUrl req1 = redirectUrl req2).
  { intros Hep. unfold redirectUrl. rewrite (Horigin Hep). reflexivity. }
  destruct ep;
    try pose proof (Hbody ltac:(discriminate)) as [Hb1 Hb2];
    try pose proof (Hfields "email" ltac:(simpl; tauto)) as Hemail;
    try pose proof (Hfields "password" ltac:(simpl; tauto)) as Hpassword;
    try pose proof (Hfields "tokenHash" ltac:(simpl; tauto)) as Htoken;
    try pose proof (Hfields "type" ltac:(simpl; tauto)) as Htype;
    try pose proof (Hurl ltac:(tauto)) as Hredirect;
    clear Hbody Hfields Horigin Hurl;
    unfold_handler; use_facts; reflexivity.
Qed.

Lemma reads_only_required_witness :
  let supabase := always (Resolve (reply_of (data_of new_user JNull) JNull)) in
  let plain :=
    mkRequest [] (JObj [("email", JStr "a@b.com")]) in
  let padded :=
    mkRequest [("referer", "https://elsewhere.example")]
              (JObj [("type", JStr "email_change");
                     ("email", JStr "a@b.com");
                     ("options", JObj [("emailRedirectTo", JStr "https://evil.example")])]) in
  serve supabase ResendVerification plain =
    serve supabase ResendVerification padded.
Proof.
  apply (reads_only_required
           (always (Resolve (reply_of (data_of new_user JNull) JNull)))
           ResendVerification
           (mkRequest [] (JObj [("email", JStr "a@b.com")]))
           (mkRequest [("referer", "https://elsewhere.example")]
              (JObj [("type", JStr "email_change");
                     ("email", JStr "a@b.com");
                     ("options",
                      JObj [("emailRedirectTo",
                             JStr "https://evil.example")])]))).
  - intros _. split; reflexivity.
  - intros k [<- | []]. reflexivity.
  - intros _. reflexivity.
Defined.

(** X17. A 400 has one of two origins: the request failed the route's
    validation and the body is the route's fixed message, with no provider
    call; or, on a route other than login, the provider reported an error
    and the body carries the provider's message. *)
Theorem bad_request_cases
    (supabase : Provider) (ep : endpoint) (req : Request) (json : value) :
  In (400, json) (responses (serve supabase ep req)) ->
  (valid ep req = false
   /\ calls (serve supabase ep req) = []
   /\ json = failure (JStr (missing_message ep)))
  \/ (ep <> Login
      /\ valid ep req = true
      /\ exists reply,
           settlement_of supabase ep req = Resolve reply
           /\ JS.truthy (reply_error reply) = true
           /\ json = failure (JS.prop (reply_error reply) "message")).
Proof.
  destruct (serve_served supabase ep req); unfold the_call; pick_member;
    try discriminate.
  - left. repeat split; assumption.
  - right. split; [destruct ep; discriminate |]. split; eauto.
Qed.

Lemma bad_request_cases_witness :
  let json := failure (JStr "Email and password are required") in
  (valid Signup no_password = false
   /\ calls (serve (always Pending) Signup no_password) = []
   /\ json = failure (JStr (missing_message Signup)))
  \/ (Signup <> Login
      /\ valid Signup no_password = true
      /\ exists reply,
           settlement_of (always Pending) Signup no_password = Resolve reply
           /\ JS.truthy (reply_error reply) = true
           /\ json = failure (JS.prop (reply_error reply) "message")).
Proof.
  apply (bad_request_cases (always Pending) Signup no_password).
  left. reflexivity.
Defined.
